(** * pymls / pypw: interface resolution and stochastic layers

    A shallow embedding of

    - [pypw/interface/utils.py] : [generic_interface], the function that picks
      the coupling procedure for two adjacent media from their [MODEL] tags;
    - [pymls/layers/layer.py]   : [Layer] and [StochasticLayer].

    Python objects that the code mutates or copies (media) live in an explicit
    store indexed by references; a method is a function from the receiver and
    the store to an outcome, the receiver and the store after the call. A
    medium is an instance of a medium class or a class object itself, which
    [copy.deepcopy] does not copy. *)

From Stdlib Require Import Floats.SpecFloat.
From stdpp Require Import gmap strings list fin_maps pretty.

Local Open Scope string_scope.

(** ** Python values, types and exceptions *)

Module Py.

(** The runtime types a parameter schema or a sample can have. *)
Inductive pytype : Set :=
  | TInt | TFloat | TComplex | TBool | TStr | TNone.

#[global] Instance pytype_eq_dec : EqDecision pytype.
Proof. solve_decision. Defined.

(** Scalar values. A float is its IEEE-754 binary64 datum, so that equality
    of two [VFloat]s is equality bit for bit (NaN payloads apart). *)
Inductive pyval : Set :=
  | VInt (z : Z)
  | VFloat (f : spec_float)
  | VComplex (re im : spec_float)
  | VBool (b : bool)
  | VStr (s : string)
  | VNone.

(** [type(v)] *)
Definition type_of (v : pyval) : pytype :=
  match v with
  | VInt _ => TInt
  | VFloat _ => TFloat
  | VComplex _ _ => TComplex
  | VBool _ => TBool
  | VStr _ => TStr
  | VNone => TNone
  end.

(** [str(t)] for a type object, as an f-string prints it. *)
Definition str_of_type (t : pytype) : string :=
  match t with
  | TInt => "<class 'int'>"
  | TFloat => "<class 'float'>"
  | TComplex => "<class 'complex'>"
  | TBool => "<class 'bool'>"
  | TStr => "<class 'str'>"
  | TNone => "<class 'NoneType'>"
  end.

(** The exceptions the modelled code raises or lets through. Two are not
    Python's: [InvalidRef] is the store's own, a reference that denotes no
    object, which Python cannot produce; [Unmodelled] marks an argument on
    which a builtin is not modelled here. *)
Inductive exn : Set :=
  | ValueError (msg : string)
  | TypeError (msg : string)
  | AttributeError (attr : string)
  | KeyError (key : string)
  | OverflowError
  | NotImplementedError
  | InvalidRef
  | Unmodelled (what : string).

Inductive result (A : Type) : Type :=
  | Ok (a : A)
  | Raise (e : exn).

Arguments Ok {A} a.
Arguments Raise {A} e.

Definition raises {A} (r : result A) (e : exn) : Prop := r = Raise e.

(** [dict(pairs)]: a later pair overrides an earlier one with the same key. *)
Definition dict {V} (pairs : list (string * V)) : gmap string V :=
  foldl (fun d kv => <[fst kv := snd kv]> d) ∅ pairs.

(** [x > 0] on the numbers. *)
Definition is_positive (v : pyval) : bool :=
  match v with
  | VInt z => (0 <? z)%Z
  | VFloat f => SFltb (S754_zero false) f
  | VBool b => b
  | _ => false
  end.

End Py.

Import Py.

(** ** Media

    The class [Medium] is not among the sources; [layer.py] and [utils.py]
    read the class constants [MODEL], [EXPECTED_PARAMS] and [OPT_PARAMS] of a
    medium and get and set its attributes by name. [omega], the angular
    frequency of the cached derived state, is one of those attributes.

    The medium handed to a layer is an instance of a medium class or, as the
    [Air] of [test/solver.py] ([Layer(Air, d)], [Air.rho]), a class object;
    [is_class] tells which. [attrs] is what [getattr] finds on the object and
    what [setattr] writes on it; that an instance also sees what is later
    written on its class is not modelled. *)

Record Medium : Type := {
  is_class : bool;
  MODEL : string;
  EXPECTED_PARAMS : list (string * pytype);
  OPT_PARAMS : list (string * pytype);
  attrs : gmap string pyval
}.

(** [setattr(medium, name, v)] *)
Definition setattr (name : string) (v : pyval) (m : Medium) : Medium :=
  {| is_class := is_class m;
     MODEL := MODEL m;
     EXPECTED_PARAMS := EXPECTED_PARAMS m;
     OPT_PARAMS := OPT_PARAMS m;
     attrs := <[name := v]> (attrs m) |}.

(** [getattr(medium, name)] *)
Definition getattr (name : string) (m : Medium) : result pyval :=
  match attrs m !! name with
  | Some v => Ok v
  | None => Raise (AttributeError name)
  end.

(** ** [pypw/interface/utils.py] *)

Module Interface.

(** The coupling procedures imported from [.interfaces]. *)
Inductive interface_fn : Set :=
  | fluid_elastic_interface
  | elastic_fluid_interface
  | fluid_pem_interface.

(** [generic_interface(medium_right, medium_left)]: [Ok None] is Python's
    [None]. The three top-level [if]s are tried in turn; when an inner chain
    of [if]s matches nothing, control goes on to the next top-level [if], and
    the end of the body returns [None]. *)
Definition generic_interface (medium_right medium_left : Medium)
  : result (option interface_fn) :=
  let at_end := Ok None in
  let third :=
    if String.eqb (MODEL medium_right) "pem" then Raise NotImplementedError
    else at_end in
  let second :=
    if String.eqb (MODEL medium_right) "elastic" then
      if String.eqb (MODEL medium_left) "fluid" then Ok (Some fluid_elastic_interface)
      else if String.eqb (MODEL medium_left) "elastic" then Ok None
      else if String.eqb (MODEL medium_left) "pem" then Raise NotImplementedError
      else third
    else third in
  if String.eqb (MODEL medium_right) "fluid" then
    if String.eqb (MODEL medium_left) "fluid" then Ok None
    else if String.eqb (MODEL medium_left) "elastic" then Ok (Some elastic_fluid_interface)
    else if String.eqb (MODEL medium_left) "pem" then Ok (Some fluid_pem_interface)
    else second
  else second.

(** A medium of a given model and nothing else. *)
Definition medium_of_model (tag : string) : Medium :=
  {| is_class := false; MODEL := tag;
     EXPECTED_PARAMS := []; OPT_PARAMS := []; attrs := ∅ |}.

(** *** The policy table of the specification

    The three models of the specification and the table of its section 4.3,
    row = medium above, column = medium below, read as the specification
    words it. The code's [medium_right] is the medium above. *)
Inductive model : Set := fluid | elastic | poroelastic.

Definition tag_of (m : model) : string :=
  match m with
  | fluid => "fluid"
  | elastic => "elastic"
  | poroelastic => "pem"
  end.

Inductive policy : Set :=
  | NoOp
  | Coupling (f : interface_fn)
  | Unsupported.

Definition policy_table (above below : model) : policy :=
  match above, below with
  | fluid, fluid => NoOp
  | fluid, elastic => Coupling elastic_fluid_interface
  | fluid, poroelastic => Coupling fluid_pem_interface
  | elastic, fluid => Coupling fluid_elastic_interface
  | elastic, elastic => NoOp
  | elastic, poroelastic => Unsupported
  | poroelastic, fluid => Unsupported
  | poroelastic, elastic => Unsupported
  | poroelastic, poroelastic => NoOp
  end.

Definition resolve (above below : model) : result (option interface_fn) :=
  generic_interface (medium_of_model (tag_of above)) (medium_of_model (tag_of below)).

End Interface.

(** ** [pymls/layers/layer.py] *)

Module Layers.

(** References to medium objects, and the store that holds them. *)
Definition loc : Set := positive.

Abbreviation heap := (gmap loc Medium).

(** [copy.deepcopy(medium)]. A class object is atomic for [copy.deepcopy],
    which returns the class itself: nothing is allocated. An instance is
    copied into a new object with the same class constants and equal
    attributes; the attributes are scalars, so copying the record is the
    deep copy. *)
Definition deepcopy (m : loc) (σ : heap) : result loc * heap :=
  match σ !! m with
  | Some obj =>
      if is_class obj then (Ok m, σ)
      else let l := fresh (dom σ) in (Ok l, <[l := obj]> σ)
  | None => (Raise InvalidRef, σ)
  end.

(** Modelled from the spec: the medium's frequency evaluation, which is not
    among the sources. Section 3 has the derived state keep the
    last-evaluated angular frequency; the attribute that holds it is the
    [omega] that [layer.py] resets to [-1]. *)
Definition update_frequency (ω : pyval) (m : loc) (σ : heap) : heap :=
  alter (setattr "omega" ω) m σ.

(** The derived state is marked stale: [omega] is the [-1] that a draw
    writes. *)
Definition stale (obj : Medium) : Prop :=
  attrs obj !! "omega" = Some (VInt (-1)).

(** *** class [Layer] *)

Record Layer : Type := {
  thickness : pyval;
  medium : loc;
  name : string
}.

(** [Layer.__init__(self, medium, thickness, name)] *)
Definition Layer_init (medium : loc) (thickness : pyval) (name : string)
    (σ : heap) : result Layer * heap :=
  match deepcopy medium σ with
  | (Ok l, σ') =>
      (Ok {| thickness := thickness; medium := l; name := name |}, σ')
  | (Raise e, σ') => (Raise e, σ')
  end.

(** *** class [StochasticLayer] *)

(** The sample source [pdf]: a callable without arguments that gives one
    sample per call, or raises. It is the sequence of its outcomes and the
    number of calls made so far; it does not touch the layer or the store. *)
Record sampler : Type := {
  samples : nat -> result pyval;
  calls : nat
}.

Definition call (s : sampler) : result pyval * sampler :=
  (samples s (calls s), {| samples := samples s; calls := S (calls s) |}).

(** The bound method that [__init__] stores in the attribute [new_draw]. *)
Inductive draw_method : Set :=
  | draw_thickness_m
  | draw_medium_parameter_m.

Record StochasticLayer : Type := {
  base : Layer;
  stochastic_param : string;
  pdf : sampler;
  medium_params : gmap string pytype;
  new_draw_method : draw_method;
  initial_param_value : pyval
}.

Definition set_pdf (p : sampler) (self : StochasticLayer) : StochasticLayer :=
  {| base := base self;
     stochastic_param := stochastic_param self;
     pdf := p;
     medium_params := medium_params self;
     new_draw_method := new_draw_method self;
     initial_param_value := initial_param_value self |}.

Definition set_thickness (t : pyval) (self : StochasticLayer) : StochasticLayer :=
  {| base := {| thickness := t;
                medium := medium (base self);
                name := name (base self) |};
     stochastic_param := stochastic_param self;
     pdf := pdf self;
     medium_params := medium_params self;
     new_draw_method := new_draw_method self;
     initial_param_value := initial_param_value self |}.

Definition undefined_parameter : exn :=
  ValueError "Unable to draw a parameter undefined in the layer".

(** [StochasticLayer.__init__(self, medium, thickness, stochastic_param, pdf, name)] *)
Definition StochasticLayer_init (medium : loc) (thickness : pyval)
    (stochastic_param : string) (pdf : sampler) (name : string)
    (σ : heap) : result StochasticLayer * heap :=
  match Layer_init medium thickness name σ with
  | (Raise e, σ1) => (Raise e, σ1)
  | (Ok self, σ1) =>
      match σ1 !! Layers.medium self with
      | None => (Raise InvalidRef, σ1)
      | Some obj =>
          let params := dict (EXPECTED_PARAMS obj ++ OPT_PARAMS obj) in
          if String.eqb stochastic_param "thickness" then
            (Ok {| base := self;
                   stochastic_param := stochastic_param;
                   pdf := pdf;
                   medium_params := params;
                   new_draw_method := draw_thickness_m;
                   initial_param_value := Layers.thickness self |}, σ1)
          else if bool_decide (stochastic_param ∈ dom params) then
            match getattr stochastic_param obj with
            | Ok v =>
                (Ok {| base := self;
                       stochastic_param := stochastic_param;
                       pdf := pdf;
                       medium_params := params;
                       new_draw_method := draw_medium_parameter_m;
                       initial_param_value := v |}, σ1)
            | Raise e => (Raise e, σ1)
            end
          else (Raise undefined_parameter, σ1)
      end
  end.

Definition type_mismatch (actual expected : pytype) : exn :=
  TypeError ("Draw of type " ++ str_of_type actual
             ++ " but expected type " ++ str_of_type expected).

(** A method call gives its outcome, the receiver and the store as they are
    when it returns or raises. *)
Abbreviation outcome := (result pyval * StochasticLayer * heap)%type.

Section Methods.

(** The builtin [float]. *)
Variable builtin_float : pyval -> result spec_float.

(** [StochasticLayer.__draw_thickness(self)] *)
Definition draw_thickness (self : StochasticLayer) (σ : heap) : outcome :=
  let (sample, pdf') := call (pdf self) in
  let self := set_pdf pdf' self in
  match sample with
  | Raise e => (Raise e, self, σ)
  | Ok v =>
      match builtin_float v with
      | Raise e => (Raise e, self, σ)
      | Ok f => (Ok VNone, set_thickness (VFloat f) self, σ)
      end
  end.

(** [StochasticLayer.__draw_medium_parameter(self)] *)
Definition draw_medium_parameter (self : StochasticLayer) (σ : heap) : outcome :=
  let (sample, pdf') := call (pdf self) in
  let self := set_pdf pdf' self in
  match sample with
  | Raise e => (Raise e, self, σ)
  | Ok draw =>
      match medium_params self !! stochastic_param self with
      | None => (Raise (KeyError (stochastic_param self)), self, σ)
      | Some expected_type =>
          if bool_decide (type_of draw = expected_type) then
            match σ !! medium (base self) with
            | None => (Raise InvalidRef, self, σ)
            | Some obj =>
                let obj := setattr (stochastic_param self) draw obj in
                let obj := setattr "omega" (VInt (-1)) obj in
                (Ok draw, self, <[medium (base self) := obj]> σ)
            end
          else (Raise (type_mismatch (type_of draw) expected_type), self, σ)
      end
  end.

(** [self.new_draw()] *)
Definition new_draw (self : StochasticLayer) (σ : heap) : outcome :=
  match new_draw_method self with
  | draw_thickness_m => draw_thickness self σ
  | draw_medium_parameter_m => draw_medium_parameter self σ
  end.

End Methods.

(** [StochasticLayer.reinit(self)] *)
Definition reinit (self : StochasticLayer) (σ : heap) : outcome :=
  if String.eqb (stochastic_param self) "thickness" then
    (Ok VNone, set_thickness (initial_param_value self) self, σ)
  else
    match σ !! medium (base self) with
    | None => (Raise InvalidRef, self, σ)
    | Some obj =>
        let obj := setattr (stochastic_param self) (initial_param_value self) obj in
        (Ok VNone, self, <[medium (base self) := obj]> σ)
    end.

(** The value of the randomized quantity: the thickness, or the medium's
    attribute of that name. *)
Definition target_value (self : StochasticLayer) (σ : heap) : option pyval :=
  if String.eqb (stochastic_param self) "thickness" then
    Some (thickness (base self))
  else
    obj ← σ !! medium (base self); attrs obj !! stochastic_param self.

(** What [__init__] establishes and every method keeps: the bound draw
    method agrees with the parameter name, and a medium parameter has its
    type in the lookup table. *)
Definition consistent (self : StochasticLayer) : Prop :=
  match new_draw_method self with
  | draw_thickness_m => stochastic_param self = "thickness"
  | draw_medium_parameter_m =>
      stochastic_param self ≠ "thickness"
      ∧ is_Some (medium_params self !! stochastic_param self)
  end.

(** What no method changes: the parameter name, the lookup table, the bound
    draw method, the recorded initial value and the reference to the
    layer's medium. *)
Definition same_binding (self self' : StochasticLayer) : Prop :=
  stochastic_param self' = stochastic_param self
  /\ medium_params self' = medium_params self
  /\ new_draw_method self' = new_draw_method self
  /\ initial_param_value self' = initial_param_value self
  /\ medium (base self') = medium (base self).

(** The builtin [float] on the numbers: a float is returned as it is, an
    integer is rounded to the nearest binary64 number, ties to even, and is
    an [OverflowError] when that is beyond the largest one, a boolean is
    [1.0] or [0.0]; a complex number and [None] are a [TypeError]. Parsing a
    string is not modelled: a string sample is answered by [Unmodelled],
    and no example draws one. *)
Definition float_of_number (v : pyval) : result spec_float :=
  match v with
  | VFloat f => Ok f
  | VInt z =>
      match binary_normalize 53 1024 z 0 false with
      | S754_infinity _ => Raise OverflowError
      | f => Ok f
      end
  | VBool b => Ok (binary_normalize 53 1024 (if b then 1 else 0) 0 false)
  | VComplex _ _ =>
      Raise (TypeError "float() argument must be a string or a real number, not 'complex'")
  | VNone =>
      Raise (TypeError "float() argument must be a string or a real number, not 'NoneType'")
  | VStr _ => Raise (Unmodelled "float() of a string")
  end.

(** *** A stack of layers built from one medium

    [[Layer(mat, d1), StochasticLayer(mat, d2, 'rho', pdf), ...]] *)
Inductive layer_args : Type :=
  | LayerArgs (thickness : pyval) (name : string)
  | StochasticLayerArgs (thickness : pyval) (stochastic_param : string)
      (pdf : sampler) (name : string).

Inductive any_layer : Type :=
  | ALayer (l : Layer)
  | AStochasticLayer (l : StochasticLayer).

Definition layer_of (l : any_layer) : Layer :=
  match l with
  | ALayer l => l
  | AStochasticLayer l => base l
  end.

Definition construct (m : loc) (a : layer_args) (σ : heap) : result any_layer * heap :=
  match a with
  | LayerArgs t n =>
      match Layer_init m t n σ with
      | (Ok l, σ') => (Ok (ALayer l), σ')
      | (Raise e, σ') => (Raise e, σ')
      end
  | StochasticLayerArgs t p s n =>
      match StochasticLayer_init m t p s n σ with
      | (Ok l, σ') => (Ok (AStochasticLayer l), σ')
      | (Raise e, σ') => (Raise e, σ')
      end
  end.

Fixpoint construct_all (m : loc) (args : list layer_args) (σ : heap)
  : result (list any_layer) * heap :=
  match args with
  | [] => (Ok [], σ)
  | a :: args =>
      match construct m a σ with
      | (Raise e, σ1) => (Raise e, σ1)
      | (Ok l, σ1) =>
          match construct_all m args σ1 with
          | (Raise e, σ2) => (Raise e, σ2)
          | (Ok ls, σ2) => (Ok (l :: ls), σ2)
          end
      end
  end.

(** *** [__str__] *)

Section Printing.

(** How an f-string field prints a value: [format(v, '')]. *)
Variable format : pyval -> string.

(** [Layer.__str__(self)]. The fields are evaluated from left to right;
    [self.medium.name] is the one that can fail. The last part of the string
    has no braces around it in the source and is printed as it stands. *)
Definition Layer_str (self : Layer) (σ : heap) : result string :=
  match σ !! medium self with
  | None => Raise InvalidRef
  | Some obj =>
      match getattr "name" obj with
      | Raise e => Raise e
      | Ok medium_name =>
          Ok (name self ++ " - " ++ format (thickness self) ++ "m of "
              ++ format medium_name ++ " (self.medium.MEDIUM_TYPE)")
      end
  end.

(** [StochasticLayer.__str__(self)]: the same body as [Layer.__str__]. *)
Definition StochasticLayer_str (self : StochasticLayer) (σ : heap) : result string :=
  match σ !! medium (base self) with
  | None => Raise InvalidRef
  | Some obj =>
      match getattr "name" obj with
      | Raise e => Raise e
      | Ok medium_name =>
          Ok (name (base self) ++ " - " ++ format (thickness (base self)) ++ "m of "
              ++ format medium_name ++ " (self.medium.MEDIUM_TYPE)")
      end
  end.

End Printing.

End Layers.

(** ** Concrete media, samplers and layers used in the examples *)

Module Examples.

Import Layers.

(** The binary64 number [m * 2^e]. *)
Definition b64 (m e : Z) : spec_float := binary_normalize 53 1024 m e false.

(** A fluid with density [1.25] and sound speed [340.0], its derived state
    not computed yet. *)
Definition air : Medium :=
  {| is_class := false;
     MODEL := "fluid";
     EXPECTED_PARAMS := [("rho", TFloat); ("c", TFloat)];
     OPT_PARAMS := [("porosity", TFloat)];
     attrs := <["rho" := VFloat (b64 5 (-2))]>
              (<["c" := VFloat (b64 340 0)]>
              (<["omega" := VInt (-1)]> ∅)) |}.

Definition glass : Medium := Interface.medium_of_model "elastic".

Definition foam : Medium := Interface.medium_of_model "pem".

Definition gel : Medium := Interface.medium_of_model "viscoelastic".

(** A store with [air] at reference [1]. *)
Definition store : gmap loc Medium := {[ 1%positive := air ]}.

(** The source that gives [1.5], [1.75], [2.0], ... : [1.5 + k/4] at call [k]. *)
Definition quarters : sampler :=
  {| samples := fun k => Ok (VFloat (b64 (6 + Z.of_nat k) (-2))); calls := 0 |}.

(** A source of integers. *)
Definition integers : sampler :=
  {| samples := fun k => Ok (VInt (Z.of_nat k)); calls := 0 |}.

(** The outcome of a constructor that succeeded, with the store. *)
Definition constructed {A} (d : A) (r : result A * gmap loc Medium) : A * gmap loc Medium :=
  match r with
  | (Ok a, σ) => (a, σ)
  | (Raise _, σ) => (d, σ)
  end.

Definition no_layer : StochasticLayer :=
  {| base := {| thickness := VNone; medium := 1%positive; name := "" |};
     stochastic_param := "";
     pdf := integers;
     medium_params := ∅;
     new_draw_method := draw_thickness_m;
     initial_param_value := VNone |}.

(** [StochasticLayer(air, 0.5, 'thickness', quarters)] *)
Definition thick_layer : StochasticLayer * gmap loc Medium :=
  constructed no_layer
    (StochasticLayer_init 1%positive (VFloat (b64 1 (-1))) "thickness" quarters "Unnamed Layer" store).

(** [StochasticLayer(air, 0.5, 'rho', quarters)] *)
Definition rho_layer : StochasticLayer * gmap loc Medium :=
  constructed no_layer
    (StochasticLayer_init 1%positive (VFloat (b64 1 (-1))) "rho" quarters "Unnamed Layer" store).

(** [StochasticLayer(air, 0.5, 'rho', integers)] *)
Definition rho_layer_of_integers : StochasticLayer * gmap loc Medium :=
  constructed no_layer
    (StochasticLayer_init 1%positive (VFloat (b64 1 (-1))) "rho" integers "Unnamed Layer" store).

(** The receiver and the store after a method call. *)
Definition after (o : result pyval * StochasticLayer * gmap loc Medium)
  : StochasticLayer * gmap loc Medium :=
  (snd (fst o), snd o).

Definition then_draw (s : StochasticLayer * gmap loc Medium) : StochasticLayer * gmap loc Medium :=
  after (new_draw float_of_number (fst s) (snd s)).

Definition then_reinit (s : StochasticLayer * gmap loc Medium) : StochasticLayer * gmap loc Medium :=
  after (reinit (fst s) (snd s)).

(** The solver evaluates the layer's medium at the angular frequency [ω]. *)
Definition then_solve (ω : pyval) (s : StochasticLayer * gmap loc Medium)
  : StochasticLayer * gmap loc Medium :=
  (fst s, update_frequency ω (medium (base (fst s))) (snd s)).

Definition value_of (s : StochasticLayer * gmap loc Medium) : option pyval :=
  target_value (fst s) (snd s).

(** The attribute [a] of the layer's medium. *)
(** [[Layer(air, 0.5), StochasticLayer(air, 0.5, 'rho', quarters),
      StochasticLayer(air, 0.5, 'thickness', quarters)]] *)
Definition stack_args : list layer_args :=
  [ LayerArgs (VFloat (b64 1 (-1))) "Unnamed Layer";
    StochasticLayerArgs (VFloat (b64 1 (-1))) "rho" quarters "Unnamed Layer";
    StochasticLayerArgs (VFloat (b64 1 (-1))) "thickness" quarters "Unnamed Layer" ].

Definition stack : list any_layer * gmap loc Medium :=
  constructed [] (construct_all 1%positive stack_args store).

(** The stochastic layer on ['rho'] of the stack. *)
Definition stack_rho_layer : StochasticLayer :=
  match fst stack !! 1%nat with
  | Some (AStochasticLayer self) => self
  | _ => no_layer
  end.

(** The angular frequency of 100 Hz, rounded: [628.0]. *)
Definition omega_100Hz : pyval := VFloat (b64 628 0).

(** [air] with the attribute [name]. *)
Definition named_air : Medium := setattr "name" (VStr "air") air.

Definition named_store : gmap loc Medium := {[ 1%positive := named_air ]}.

(** [StochasticLayer(named_air, 1, 'rho', quarters, 'trim')] *)
Definition named_rho_layer : StochasticLayer * gmap loc Medium :=
  constructed no_layer
    (StochasticLayer_init 1%positive (VInt 1) "rho" quarters "trim" named_store).

(** [StochasticLayer(air, 0.5, 'porosity', quarters)]: [porosity] is in the
    optional schema of [air], and [air] has no such attribute. *)
Definition porosity_layer : result StochasticLayer * gmap loc Medium :=
  StochasticLayer_init 1%positive (VFloat (b64 1 (-1))) "porosity" quarters "Unnamed Layer" store.

(** A medium whose optional schema declares [rho] again, as an [int]. *)
Definition regraded : Medium :=
  {| is_class := false;
     MODEL := "fluid";
     EXPECTED_PARAMS := [("rho", TFloat)];
     OPT_PARAMS := [("rho", TInt)];
     attrs := <["rho" := VInt 1]> (<["omega" := VInt (-1)]> ∅) |}.

(** [StochasticLayer(regraded, 0.5, 'rho', integers)] *)
Definition regraded_layer : result StochasticLayer * gmap loc Medium :=
  StochasticLayer_init 1%positive (VFloat (b64 1 (-1))) "rho" integers "Unnamed Layer"
    {[ 1%positive := regraded ]}.

(** A source whose first call raises. *)
Definition failing : sampler :=
  {| samples := fun k => Raise (ValueError "no sample"); calls := 0 |}.

(** [StochasticLayer(air, 0.5, 'rho', failing)] *)
Definition failing_layer : StochasticLayer * gmap loc Medium :=
  constructed no_layer
    (StochasticLayer_init 1%positive (VFloat (b64 1 (-1))) "rho" failing "Unnamed Layer" store).

(** How an f-string field prints a string, an integer, a boolean and
    [None]. The shortest decimal form of a float, or of the two parts of a
    complex number, is not computed here: those print as a placeholder, and
    no example prints one. *)
Definition format_field (v : pyval) : string :=
  match v with
  | VStr s => s
  | VInt z => pretty z
  | VBool b => if b then "True" else "False"
  | VNone => "None"
  | VFloat _ => "<float>"
  | VComplex _ _ => "<complex>"
  end.

(** A medium class with the class attributes of [air], as the [Air] that
    the tests hand to [Layer]. *)
Definition AirClass : Medium :=
  {| is_class := true;
     MODEL := MODEL air;
     EXPECTED_PARAMS := EXPECTED_PARAMS air;
     OPT_PARAMS := OPT_PARAMS air;
     attrs := attrs air |}.

(** A store with the class [AirClass] at reference [1]. *)
Definition class_store : gmap loc Medium := {[ 1%positive := AirClass ]}.

(** [[Layer(AirClass, 0.5), StochasticLayer(AirClass, 0.5, 'rho', quarters)]] *)
Definition class_stack_args : list layer_args :=
  [ LayerArgs (VFloat (b64 1 (-1))) "Unnamed Layer";
    StochasticLayerArgs (VFloat (b64 1 (-1))) "rho" quarters "Unnamed Layer" ].

Definition class_stack : list any_layer * gmap loc Medium :=
  constructed [] (construct_all 1%positive class_stack_args class_store).

(** The stochastic layer of [class_stack]. *)
Definition class_rho_layer : StochasticLayer :=
  match fst class_stack !! 1%nat with
  | Some (AStochasticLayer self) => self
  | _ => no_layer
  end.

Definition medium_attr (a : string) (s : StochasticLayer * gmap loc Medium) : option pyval :=
  obj ← snd s !! medium (base (fst s)); attrs obj !! a.

End Examples.

Import Interface Layers Examples.

(** * Properties *)

(** ** The interface resolver *)

Section Resolver.

Implicit Types r l : Medium.

(** Python's [==] on two strings, as a proposition. *)
Local Ltac string_cases :=
  repeat match goal with
  | |- context [String.eqb ?a ?b] =>
      let E := fresh "E" in
      destruct (String.eqb a b) eqn:E;
      [apply String.eqb_eq in E | apply String.eqb_neq in E]
  end.

Local Ltac resolve_cases :=
  unfold generic_interface; cbv zeta; string_cases;
  try congruence; try (intuition congruence).

Lemma resolve_fluid_right r l :
  MODEL r = "fluid" ->
  generic_interface r l =
    if String.eqb (MODEL l) "fluid" then Ok None
    else if String.eqb (MODEL l) "elastic" then Ok (Some elastic_fluid_interface)
    else if String.eqb (MODEL l) "pem" then Ok (Some fluid_pem_interface)
    else Ok None.
Proof. intros H. unfold generic_interface. rewrite H. cbn. reflexivity. Qed.

Lemma resolve_elastic_right r l :
  MODEL r = "elastic" ->
  generic_interface r l =
    if String.eqb (MODEL l) "fluid" then Ok (Some fluid_elastic_interface)
    else if String.eqb (MODEL l) "elastic" then Ok None
    else if String.eqb (MODEL l) "pem" then Raise NotImplementedError
    else Ok None.
Proof. intros H. unfold generic_interface. rewrite H. cbn. reflexivity. Qed.

Lemma resolve_pem_right r l :
  MODEL r = "pem" -> generic_interface r l = Raise NotImplementedError.
Proof. intros H. unfold generic_interface. rewrite H. cbn. reflexivity. Qed.

Lemma resolve_raises_only_unimplemented r l e :
  generic_interface r l = Raise e -> e = NotImplementedError.
Proof. resolve_cases. Qed.

(** C1, as stated, fails: two media of the same model do not always resolve
    to the no-op case. Two poroelastic media ([MODEL = 'pem']) have equal
    tags and [generic_interface] raises [NotImplementedError] for them. *)
Lemma same_model_not_always_noop :
  ~ (forall r l, MODEL r = MODEL l -> generic_interface r l = Ok None).
Proof.
  intros H. specialize (H foam foam eq_refl). vm_compute in H. discriminate H.
Qed.

(** C1, amended: two media with the same model tag resolve to the no-op case
    [None] whenever that tag is not ['pem'] (so for fluid with fluid and
    elastic with elastic); with the tag ['pem'] on both sides the resolver
    raises [NotImplementedError]. *)
Theorem same_model_resolution r l :
  MODEL r = MODEL l ->
  generic_interface r l =
    if String.eqb (MODEL r) "pem" then Raise NotImplementedError else Ok None.
Proof. intros H. unfold generic_interface. rewrite <- H. resolve_cases. Qed.

Lemma same_model_resolution_witness :
  generic_interface air air = Ok None
  /\ generic_interface glass glass = Ok None
  /\ generic_interface foam foam = Raise NotImplementedError.
Proof.
  split; [| split].
  - apply (same_model_resolution air air). reflexivity.
  - apply (same_model_resolution glass glass). reflexivity.
  - apply (same_model_resolution foam foam). reflexivity.
Defined.

(** C5: the resolver is not symmetric. With a fluid as the first medium and
    an elastic solid as the second it returns [elastic_fluid_interface]; with
    the two swapped it returns [fluid_elastic_interface]; the two procedures
    are different. *)
Theorem fluid_elastic_asymmetric r l :
  MODEL r = "fluid" -> MODEL l = "elastic" ->
  generic_interface r l = Ok (Some elastic_fluid_interface)
  /\ generic_interface l r = Ok (Some fluid_elastic_interface)
  /\ generic_interface r l <> generic_interface l r.
Proof.
  intros Hr Hl.
  rewrite (resolve_fluid_right r l Hr), (resolve_elastic_right l r Hl), Hr, Hl.
  cbn. repeat split. discriminate.
Qed.

Lemma fluid_elastic_asymmetric_witness :
  generic_interface air glass = Ok (Some elastic_fluid_interface)
  /\ generic_interface glass air = Ok (Some fluid_elastic_interface)
  /\ generic_interface air glass <> generic_interface glass air.
Proof. apply (fluid_elastic_asymmetric air glass); reflexivity. Defined.

(** C9, as stated, fails: the resolver does not raise exactly on the
    pairings that the policy table marks unsupported. The table has
    (poroelastic, poroelastic) as a no-op, a supported pairing, and the
    resolver raises [NotImplementedError] for it. *)
Lemma raises_on_supported_pairing :
  ~ (forall above below,
       raises (resolve above below) NotImplementedError
       <-> policy_table above below = Unsupported).
Proof.
  intros H. destruct (H poroelastic poroelastic) as [H1 _].
  assert (Hr : raises (resolve poroelastic poroelastic) NotImplementedError)
    by reflexivity.
  specialize (H1 Hr). discriminate H1.
Qed.

(** C9, amended: the resolver raises exactly when the first medium is
    poroelastic (['pem'], whatever the second medium: fluid, elastic or
    poroelastic), or the first is elastic and the second poroelastic; what it
    raises is [NotImplementedError]. No pairing with a fluid first, and
    neither (elastic, fluid) nor (elastic, elastic), raises. *)
Theorem raises_iff_unimplemented r l :
  (generic_interface r l = Raise NotImplementedError
   <-> MODEL r = "pem" \/ (MODEL r = "elastic" /\ MODEL l = "pem"))
  /\ (forall e, generic_interface r l = Raise e -> e = NotImplementedError).
Proof.
  split; [split |].
  - resolve_cases.
  - resolve_cases.
  - apply resolve_raises_only_unimplemented.
Qed.

Lemma raises_iff_unimplemented_witness :
  generic_interface foam foam = Raise NotImplementedError
  /\ generic_interface foam air = Raise NotImplementedError
  /\ generic_interface glass foam = Raise NotImplementedError.
Proof.
  split; [| split].
  - apply (proj1 (raises_iff_unimplemented foam foam)). left. reflexivity.
  - apply (proj1 (raises_iff_unimplemented foam air)). left. reflexivity.
  - apply (proj1 (raises_iff_unimplemented glass foam)). right. split; reflexivity.
Defined.

(** C10: a model tag outside ['fluid'], ['elastic'], ['pem'] makes the
    resolver fall through every branch and return [None]: when the first
    medium is a fluid or an elastic solid and the second medium's tag is
    unknown, and when the first medium's tag is unknown. Nothing is raised. *)
Theorem unknown_model_falls_through r l :
  let known tag := tag = "fluid" \/ tag = "elastic" \/ tag = "pem" in
  ((MODEL r = "fluid" \/ MODEL r = "elastic") /\ ~ known (MODEL l))
  \/ ~ known (MODEL r) ->
  generic_interface r l = Ok None.
Proof. cbv zeta. resolve_cases. Qed.

Lemma unknown_model_falls_through_witness :
  generic_interface air gel = Ok None
  /\ generic_interface glass gel = Ok None
  /\ generic_interface gel foam = Ok None.
Proof.
  split; [| split].
  - apply (unknown_model_falls_through air gel).
    left. split; [left; reflexivity |].
    intros [H | [H | H]]; discriminate H.
  - apply (unknown_model_falls_through glass gel).
    left. split; [right; reflexivity |].
    intros [H | [H | H]]; discriminate H.
  - apply (unknown_model_falls_through gel foam).
    right. intros [H | [H | H]]; discriminate H.
Defined.

End Resolver.

(** ** Layers *)

Section LayerFacts.

Implicit Types (σ : gmap loc Medium) (obj : Medium) (m k : loc).
Implicit Types (self : StochasticLayer) (t v : pyval) (p n : string).

(** *** The type lookup table *)

Lemma foldl_insert_is_Some {V} (pairs : list (string * V)) (d : gmap string V) p :
  is_Some (foldl (fun d kv => <[fst kv := snd kv]> d) d pairs !! p)
  <-> is_Some (d !! p) \/ p ∈ pairs.*1.
Proof.
  revert d. induction pairs as [| [key ty] pairs IH]; intros d; cbn.
  - rewrite elem_of_nil. tauto.
  - rewrite IH, elem_of_cons, lookup_insert_is_Some'. intuition congruence.
Qed.

Lemma dict_is_Some {V} (pairs : list (string * V)) p :
  is_Some (dict pairs !! p) <-> p ∈ pairs.*1.
Proof.
  unfold dict. rewrite foldl_insert_is_Some, lookup_empty.
  split; [intros [[? [=]] | ?]; assumption | auto].
Qed.

Lemma dict_keys {V} (pairs : list (string * V)) p :
  p ∈ dom (dict pairs) <-> p ∈ pairs.*1.
Proof. rewrite elem_of_dom. apply dict_is_Some. Qed.

(** *** Construction *)

Lemma deepcopy_some m σ obj :
  σ !! m = Some obj ->
  deepcopy m σ =
    (Ok (if is_class obj then m else fresh (dom σ)),
     if is_class obj then σ else <[fresh (dom σ) := obj]> σ).
Proof. intros H. unfold deepcopy. rewrite H. destruct (is_class obj); reflexivity. Qed.

Lemma Layer_init_ok m t n σ obj :
  σ !! m = Some obj ->
  Layer_init m t n σ =
    (Ok {| thickness := t;
           medium := if is_class obj then m else fresh (dom σ);
           name := n |},
     if is_class obj then σ else <[fresh (dom σ) := obj]> σ).
Proof. intros H. unfold Layer_init. rewrite (deepcopy_some _ _ _ H). reflexivity. Qed.

Lemma fresh_not_allocated σ : σ !! fresh (dom σ) = None.
Proof. apply not_elem_of_dom, is_fresh. Qed.

(** C8, as stated, fails: [Layer.__init__] checks nothing, so a layer with a
    thickness that is not positive is constructed. Here the thickness is
    [-1.0]. *)
Lemma nonpositive_thickness_accepted :
  ~ (forall m t n σ l σ',
       Layer_init m t n σ = (Ok l, σ') -> is_positive (thickness l) = true).
Proof.
  intros H.
  specialize (H 1%positive (VFloat (b64 (-1) 0)) "Unnamed Layer" store _ _
                (Layer_init_ok 1%positive _ _ store air eq_refl)).
  vm_compute in H. discriminate H.
Qed.

(** C8, amended: [Layer.__init__] makes no check of the thickness. For
    every thickness value, positive or not, constructing a layer from a
    medium succeeds, and the layer's thickness is the value that was given. *)
Theorem layer_keeps_given_thickness m t n σ obj :
  σ !! m = Some obj ->
  exists l σ', Layer_init m t n σ = (Ok l, σ') /\ thickness l = t.
Proof.
  intros H. rewrite (Layer_init_ok _ _ _ _ _ H). eexists _, _. split; reflexivity.
Qed.

Lemma layer_keeps_given_thickness_witness :
  exists l σ',
    Layer_init 1%positive (VInt 0) "Unnamed Layer" store = (Ok l, σ')
    /\ thickness l = VInt 0.
Proof.
  apply (layer_keeps_given_thickness 1%positive (VInt 0) "Unnamed Layer" store air).
  reflexivity.
Defined.

Lemma StochasticLayer_init_unfold m t p s n σ obj :
  σ !! m = Some obj ->
  let l := if is_class obj then m else fresh (dom σ) in
  let σ1 := if is_class obj then σ else <[fresh (dom σ) := obj]> σ in
  let self := {| thickness := t; medium := l; name := n |} in
  let params := dict (EXPECTED_PARAMS obj ++ OPT_PARAMS obj) in
  StochasticLayer_init m t p s n σ =
    if String.eqb p "thickness" then
      (Ok {| base := self; stochastic_param := p; pdf := s;
             medium_params := params;
             new_draw_method := draw_thickness_m;
             initial_param_value := t |}, σ1)
    else if bool_decide (p ∈ dom params) then
      match getattr p obj with
      | Ok v =>
          (Ok {| base := self; stochastic_param := p; pdf := s;
                 medium_params := params;
                 new_draw_method := draw_medium_parameter_m;
                 initial_param_value := v |}, σ1)
      | Raise e => (Raise e, σ1)
      end
    else (Raise undefined_parameter, σ1).
Proof.
  intros H. cbv zeta. unfold StochasticLayer_init.
  rewrite (Layer_init_ok _ _ _ _ _ H). cbn.
  destruct (is_class obj); [rewrite H | rewrite lookup_insert_eq]; reflexivity.
Qed.

(** C4: a parameter name that is neither ['thickness'] nor a key of the
    medium's required or optional parameter schema makes the constructor
    raise [ValueError]: no layer comes out of it, so there is nothing that a
    later draw could fail on. *)
Theorem unknown_parameter_fails_at_construction m t p s n σ obj :
  σ !! m = Some obj ->
  p <> "thickness" ->
  p ∉ (EXPECTED_PARAMS obj).*1 ->
  p ∉ (OPT_PARAMS obj).*1 ->
  fst (StochasticLayer_init m t p s n σ) = Raise undefined_parameter.
Proof.
  intros H Hp Hexp Hopt.
  rewrite (StochasticLayer_init_unfold _ _ _ _ _ _ _ H).
  apply String.eqb_neq in Hp. rewrite Hp.
  rewrite bool_decide_eq_false_2; [reflexivity |].
  rewrite dict_keys, fmap_app, elem_of_app. tauto.
Qed.

Lemma unknown_parameter_fails_at_construction_witness :
  fst (StochasticLayer_init 1%positive (VFloat (b64 1 (-1))) "sigma" quarters
         "Unnamed Layer" store) = Raise undefined_parameter.
Proof.
  apply (unknown_parameter_fails_at_construction _ _ _ _ _ _ air).
  - reflexivity.
  - discriminate.
  - vm_compute. intros H. repeat (inversion H as [| ? ? ? H']; clear H; rename H' into H).
  - vm_compute. intros H. repeat (inversion H as [| ? ? ? H']; clear H; rename H' into H).
Defined.

(** What [__init__] establishes. *)
Lemma StochasticLayer_init_establishes m t p s n σ obj self σ1 :
  σ !! m = Some obj ->
  StochasticLayer_init m t p s n σ = (Ok self, σ1) ->
  consistent self
  /\ stochastic_param self = p
  /\ medium_params self = dict (EXPECTED_PARAMS obj ++ OPT_PARAMS obj)
  /\ medium (base self) = (if is_class obj then m else fresh (dom σ))
  /\ σ1 = (if is_class obj then σ else <[fresh (dom σ) := obj]> σ)
  /\ target_value self σ1 = Some (initial_param_value self).
Proof.
  intros H. rewrite (StochasticLayer_init_unfold _ _ _ _ _ _ _ H).
  unfold consistent, target_value, getattr.
  destruct (String.eqb p "thickness") eqn:Ep.
  - intros [= <- <-]. cbn. rewrite Ep. apply String.eqb_eq in Ep. auto 10.
  - case_bool_decide as Hin; [| discriminate].
    destruct (attrs obj !! p) as [v |] eqn:Hv; [| discriminate].
    intros [= <- <-]. cbn. rewrite Ep.
    assert (Hcopy : (if is_class obj then σ else <[fresh (dom σ) := obj]> σ)
                    !! (if is_class obj then m else fresh (dom σ)) = Some obj)
      by (destruct (is_class obj); [assumption | apply lookup_insert_eq]).
    rewrite Hcopy. cbn.
    apply String.eqb_neq in Ep. apply elem_of_dom in Hin. auto 10.
Qed.

(** *** Draws *)

Section Draws.

Variable float : pyval -> result spec_float.

(** A draw changes the store at most at the layer's own medium, keeps the
    objects that exist, and leaves the layer's binding alone. *)
Lemma new_draw_effect self σ r self1 σ1 :
  new_draw float self σ = (r, self1, σ1) ->
  same_binding self self1
  /\ (forall k, k <> medium (base self) -> σ1 !! k = σ !! k)
  /\ (is_Some (σ !! medium (base self)) -> is_Some (σ1 !! medium (base self))).
Proof.
  unfold new_draw, draw_thickness, draw_medium_parameter, same_binding.
  destruct (new_draw_method self) eqn:Em; cbn;
    repeat (case_match; cbn); intros [= <- <- <-]; cbn;
    (split; [auto 10 | split]); intros;
    rewrite ?lookup_insert_ne, ?lookup_insert_eq by auto; eauto.
  exfalso. eapply is_Some_None. eassumption.
Qed.

(** A draw of a medium parameter that succeeds stores the sample and marks
    the derived state stale. *)
Lemma draw_medium_parameter_ok self σ draw self1 σ1 :
  draw_medium_parameter self σ = (Ok draw, self1, σ1) ->
  exists obj,
    σ !! medium (base self) = Some obj
    /\ fst (call (pdf self)) = Ok draw
    /\ medium_params self !! stochastic_param self = Some (type_of draw)
    /\ σ1 = <[medium (base self) :=
              setattr "omega" (VInt (-1)) (setattr (stochastic_param self) draw obj)]> σ.
Proof.
  unfold draw_medium_parameter. cbn.
  destruct (samples (pdf self) (calls (pdf self))) as [d | e] eqn:Hs; [| discriminate].
  destruct (medium_params self !! stochastic_param self) as [ty |]; [| discriminate].
  case_bool_decide as Hty; [| discriminate].
  destruct (σ !! medium (base self)) as [obj |]; [| discriminate].
  intros [= <- <- <-]. subst ty. eauto.
Qed.

Lemma draw_marks_stale self σ draw self1 σ1 :
  draw_medium_parameter self σ = (Ok draw, self1, σ1) ->
  exists obj', σ1 !! medium (base self) = Some obj' /\ stale obj'.
Proof.
  intros (obj & _ & _ & _ & ->)%draw_medium_parameter_ok.
  eexists. rewrite lookup_insert_eq. split; [reflexivity |].
  unfold stale, setattr. cbn. apply lookup_insert_eq.
Qed.

(** C2: when the layer draws a medium parameter and the sample's type is not
    the type the lookup table (built by [__init__] from the medium's required
    and optional schemas) has for that parameter, the draw raises [TypeError]
    with a message that names the sample's type and the expected type, and
    the store is the one before the call: no attribute of the medium, [omega]
    included, has changed. The layer itself differs only by the sample
    consumed from its source. *)
Theorem mismatched_draw_raises_type_error self σ draw expected :
  new_draw_method self = draw_medium_parameter_m ->
  medium_params self !! stochastic_param self = Some expected ->
  fst (call (pdf self)) = Ok draw ->
  type_of draw <> expected ->
  new_draw float self σ =
    (Raise (TypeError ("Draw of type " ++ str_of_type (type_of draw)
                       ++ " but expected type " ++ str_of_type expected)),
     set_pdf (snd (call (pdf self))) self,
     σ).
Proof.
  intros Hm Hty Hs Hne. unfold new_draw. rewrite Hm.
  unfold draw_medium_parameter. cbn in *. rewrite Hs, Hty.
  rewrite bool_decide_eq_false_2 by assumption. reflexivity.
Qed.

(** *** Reinitialisation *)

Lemma reinit_effect self σ r self1 σ1 :
  reinit self σ = (r, self1, σ1) ->
  same_binding self self1
  /\ (forall k, k <> medium (base self) -> σ1 !! k = σ !! k).
Proof.
  unfold reinit, same_binding.
  repeat (case_match; cbn); intros [= <- <- <-]; cbn;
    repeat split; auto; intros; rewrite lookup_insert_ne by auto; reflexivity.
Qed.

Lemma reinit_restores_initial self σ :
  is_Some (σ !! medium (base self)) ->
  exists self1 σ1,
    reinit self σ = (Ok VNone, self1, σ1)
    /\ target_value self1 σ1 = Some (initial_param_value self).
Proof.
  intros [obj Hobj]. unfold reinit, target_value.
  destruct (String.eqb (stochastic_param self) "thickness") eqn:Ep.
  - eexists _, _. split; [reflexivity |]. cbn. rewrite Ep. reflexivity.
  - rewrite Hobj. eexists _, _. split; [reflexivity |].
    rewrite Ep, lookup_insert_eq. cbn. apply lookup_insert_eq.
Qed.

(** [reinit] writes the parameter and nothing else: [omega] keeps the value
    it had. *)
Lemma reinit_keeps_omega self σ obj :
  stochastic_param self <> "thickness" ->
  stochastic_param self <> "omega" ->
  σ !! medium (base self) = Some obj ->
  exists obj',
    snd (reinit self σ) !! medium (base self) = Some obj'
    /\ attrs obj' !! "omega" = attrs obj !! "omega".
Proof.
  intros Hp%String.eqb_neq Ho Hobj. unfold reinit. rewrite Hp, Hobj. cbn.
  eexists. rewrite lookup_insert_eq. split; [reflexivity |].
  cbn. apply lookup_insert_ne. assumption.
Qed.

(** C3, amended: a draw followed by [reinit()] leaves the randomized
    quantity, thickness or medium parameter, at exactly the value recorded at
    construction, whether the draw succeeded or raised. That is the value
    before the draw whenever the layer was at its recorded value then, as it
    is after construction and after [reinit()]. *)
Theorem redraw_reinit_restores_initial self σ r self1 σ1 :
  is_Some (σ !! medium (base self)) ->
  new_draw float self σ = (r, self1, σ1) ->
  exists self2 σ2,
    reinit self1 σ1 = (Ok VNone, self2, σ2)
    /\ target_value self2 σ2 = Some (initial_param_value self)
    /\ (target_value self σ = Some (initial_param_value self) ->
        target_value self2 σ2 = target_value self σ).
Proof.
  intros Hobj Hdraw.
  destruct (new_draw_effect _ _ _ _ _ Hdraw)
    as ((_ & _ & _ & Hinit & Hmed) & _ & Hkept).
  destruct (reinit_restores_initial self1 σ1) as (self2 & σ2 & Hre & Hval).
  { rewrite Hmed. auto. }
  exists self2, σ2. rewrite Hinit in Hval.
  split; [assumption | split; [assumption |]].
  intros ->. assumption.
Qed.

End Draws.

(** *** Layers built from one medium *)





Section Aliasing.

Variable float : pyval -> result spec_float.


End Aliasing.

(** *** The theorems at concrete layers *)

Lemma mismatched_draw_raises_type_error_witness :
  new_draw float_of_number (fst rho_layer_of_integers) (snd rho_layer_of_integers) =
    (Raise (TypeError "Draw of type <class 'int'> but expected type <class 'float'>"),
     set_pdf (snd (call integers)) (fst rho_layer_of_integers),
     snd rho_layer_of_integers).
Proof.
  apply (mismatched_draw_raises_type_error float_of_number
           (fst rho_layer_of_integers) (snd rho_layer_of_integers) (VInt 0) TFloat).
  - reflexivity.
  - vm_compute. reflexivity.
  - reflexivity.
  - discriminate.
Defined.

(** C3, as stated, fails: [reinit()] restores the value recorded at
    construction, which is not the value before the draw once the layer has
    been drawn from. A layer constructed at [rho = 1.25] (at thickness [0.5])
    and drawn once is at [1.5] (at [1.5]); a second draw and [reinit()] leave
    it at [1.25] (at [0.5]), not at [1.5]. *)
Lemma reinit_does_not_restore_pre_draw_value :
  (value_of (then_draw rho_layer) = Some (VFloat (b64 6 (-2)))
   /\ value_of (then_reinit (then_draw (then_draw rho_layer)))
      <> value_of (then_draw rho_layer))
  /\ (value_of (then_draw thick_layer) = Some (VFloat (b64 6 (-2)))
      /\ value_of (then_reinit (then_draw (then_draw thick_layer)))
         <> value_of (then_draw thick_layer)).
Proof. repeat split; vm_compute; (reflexivity || discriminate). Qed.

Lemma redraw_reinit_restores_initial_witness :
  exists self2 σ2,
    reinit (fst (then_draw rho_layer)) (snd (then_draw rho_layer)) = (Ok VNone, self2, σ2)
    /\ target_value self2 σ2 = Some (VFloat (b64 5 (-2)))
    /\ (target_value (fst rho_layer) (snd rho_layer) = Some (VFloat (b64 5 (-2))) ->
        target_value self2 σ2 = target_value (fst rho_layer) (snd rho_layer)).
Proof.
  apply (redraw_reinit_restores_initial float_of_number
           (fst rho_layer) (snd rho_layer)
           (fst (fst (new_draw float_of_number (fst rho_layer) (snd rho_layer))))).
  - vm_compute. eexists. reflexivity.
  - vm_compute. reflexivity.
Defined.

(** C6 fails on [reinit()]: it writes the medium parameter and leaves [omega]
    alone, where the draw resets it to [-1]. A layer on [rho] is drawn from
    ([rho = 1.5], [omega = -1]), its medium is evaluated at [omega = 628.0],
    and [reinit()] then sets [rho] back to [1.25] with [omega] still [628.0]:
    the derived state computed from [rho = 1.5] is not marked stale. *)
Lemma reinit_does_not_mark_stale :
  let drawn := then_draw rho_layer in
  let solved := then_solve omega_100Hz drawn in
  let restored := then_reinit solved in
  (value_of drawn = Some (VFloat (b64 6 (-2)))
   /\ medium_attr "omega" drawn = Some (VInt (-1)))
  /\ (value_of solved = Some (VFloat (b64 6 (-2)))
      /\ medium_attr "omega" solved = Some omega_100Hz)
  /\ (value_of restored = Some (VFloat (b64 5 (-2)))
      /\ medium_attr "omega" restored = Some omega_100Hz
      /\ medium_attr "omega" restored <> Some (VInt (-1))).
Proof. cbv zeta. repeat split; vm_compute; (reflexivity || discriminate). Qed.


(** The layers of [class_stack] and the original after that draw. *)
Example class_stack_draw_changes_all :
  let drawn := then_draw (class_rho_layer, snd class_stack) in
  (medium ∘ layer_of <$> fst class_stack) = [1; 1]%positive
  /\ snd class_stack = class_store
  /\ (obj ← class_store !! 1%positive; attrs obj !! "rho") = Some (VFloat (b64 5 (-2)))
  /\ (obj ← snd drawn !! 1%positive; attrs obj !! "rho") = Some (VFloat (b64 6 (-2))).
Proof. cbv zeta. repeat split; vm_compute; reflexivity. Qed.


(** The draw of the witness does change the medium of the layer it is made
    on: [rho] becomes [1.5] there, and stays [1.25] in the original. *)
Example stack_draw_changes_own_medium :
  let drawn := then_draw (stack_rho_layer, snd stack) in
  medium_attr "rho" drawn = Some (VFloat (b64 6 (-2)))
  /\ air.(attrs) !! "rho" = Some (VFloat (b64 5 (-2)))
  /\ (medium ∘ layer_of <$> fst stack) = [2; 3; 4]%positive.
Proof. cbv zeta. repeat split; vm_compute; reflexivity. Qed.

End LayerFacts.

(** * Further properties *)

(** ** The interface resolver, outcome by outcome *)

Section ResolverOutcomes.

Implicit Types r l : Medium.

Local Ltac tag_cases :=
  unfold generic_interface; cbv zeta;
  repeat match goal with
  | |- context [String.eqb ?a ?b] =>
      let E := fresh "E" in
      destruct (String.eqb a b) eqn:E;
      [apply String.eqb_eq in E | apply String.eqb_neq in E]
  end.

Lemma coupling_returned_inv r l f :
  generic_interface r l = Ok (Some f) ->
  (MODEL r = "fluid" /\ MODEL l = "elastic" /\ f = elastic_fluid_interface)
  \/ (MODEL r = "fluid" /\ MODEL l = "pem" /\ f = fluid_pem_interface)
  \/ (MODEL r = "elastic" /\ MODEL l = "fluid" /\ f = fluid_elastic_interface).
Proof. tag_cases; (intros [= <-] || intros [=]); intuition congruence. Qed.

(** X1: the resolver returns a coupling procedure for three ordered pairs of
    tags and no other: ('fluid', 'elastic') gives [elastic_fluid_interface],
    ('fluid', 'pem') gives [fluid_pem_interface] and ('elastic', 'fluid')
    gives [fluid_elastic_interface]. *)
Theorem coupling_returned_iff r l f :
  generic_interface r l = Ok (Some f)
  <-> (MODEL r = "fluid" /\ MODEL l = "elastic" /\ f = elastic_fluid_interface)
      \/ (MODEL r = "fluid" /\ MODEL l = "pem" /\ f = fluid_pem_interface)
      \/ (MODEL r = "elastic" /\ MODEL l = "fluid" /\ f = fluid_elastic_interface).
Proof.
  split; [apply coupling_returned_inv |].
  intros [(Hr & Hl & ->) | [(Hr & Hl & ->) | (Hr & Hl & ->)]].
  - rewrite (resolve_fluid_right r l Hr), Hl. reflexivity.
  - rewrite (resolve_fluid_right r l Hr), Hl. reflexivity.
  - rewrite (resolve_elastic_right r l Hr), Hl. reflexivity.
Qed.

(** X2: the resolver returns [None] exactly when the first medium is a fluid
    and the second is neither elastic nor poroelastic, or the first is
    elastic and the second neither a fluid nor poroelastic, or the first
    medium's tag is none of the three. *)
Theorem none_returned_iff r l :
  generic_interface r l = Ok None
  <-> (MODEL r = "fluid" /\ MODEL l <> "elastic" /\ MODEL l <> "pem")
      \/ (MODEL r = "elastic" /\ MODEL l <> "fluid" /\ MODEL l <> "pem")
      \/ (MODEL r <> "fluid" /\ MODEL r <> "elastic" /\ MODEL r <> "pem").
Proof.
  tag_cases; (split; [intros H | intros H]);
    try discriminate H; try (intuition congruence).
Qed.

(** X3: whenever the resolver returns a coupling procedure, the call with
    the two media swapped does not give the same outcome; it returns another
    procedure or raises. *)
Theorem coupling_not_symmetric r l f :
  generic_interface r l = Ok (Some f) ->
  generic_interface l r <> generic_interface r l.
Proof.
  intros H. rewrite H. apply coupling_returned_inv in H.
  destruct H as [(Hr & Hl & ->) | [(Hr & Hl & ->) | (Hr & Hl & ->)]].
  - rewrite (resolve_elastic_right l r Hl), Hr. cbn. discriminate.
  - rewrite (resolve_pem_right l r Hl). discriminate.
  - rewrite (resolve_fluid_right l r Hl), Hr. cbn. discriminate.
Qed.

Lemma coupling_not_symmetric_witness :
  generic_interface foam air <> generic_interface air foam
  /\ generic_interface glass air <> generic_interface air glass.
Proof.
  split.
  - apply (coupling_not_symmetric air foam fluid_pem_interface). reflexivity.
  - apply (coupling_not_symmetric air glass elastic_fluid_interface). reflexivity.
Defined.

End ResolverOutcomes.

(** ** Construction of a stochastic layer *)

Section Construction.

Implicit Types (σ : gmap loc Medium) (obj : Medium) (m k : loc).
Implicit Types (self : StochasticLayer) (t v : pyval) (p n : string).

Lemma foldl_insert_union {V} (pairs : list (string * V)) (d : gmap string V) :
  foldl (fun d kv => <[fst kv := snd kv]> d) d pairs = dict pairs ∪ d.
Proof.
  unfold dict. revert d. induction pairs as [| [key ty] pairs IH]; intros d; cbn.
  - symmetry. apply (left_id_L ∅ (∪)).
  - rewrite IH, (IH (<[key := ty]> ∅)), insert_empty.
    rewrite (insert_union_singleton_l d), (assoc_L (∪)). reflexivity.
Qed.

Lemma dict_app {V} (front back : list (string * V)) :
  dict (front ++ back) = dict back ∪ dict front.
Proof. unfold dict at 1. rewrite foldl_app. apply foldl_insert_union. Qed.

(** X4: from a medium, the constructor succeeds exactly when the parameter
    name is ['thickness'], or is a key of the required or the optional schema
    and the medium has an attribute of that name. *)
Theorem construction_succeeds_iff m t p (s : sampler) n σ obj :
  σ !! m = Some obj ->
  (exists self σ1, StochasticLayer_init m t p s n σ = (Ok self, σ1))
  <-> p = "thickness"
      \/ (p ∈ ((EXPECTED_PARAMS obj ++ OPT_PARAMS obj)%list).*1 /\ is_Some (attrs obj !! p)).
Proof.
  intros H. rewrite (StochasticLayer_init_unfold _ _ _ _ _ _ _ H).
  unfold getattr.
  destruct (String.eqb p "thickness") eqn:Ep;
    [apply String.eqb_eq in Ep | apply String.eqb_neq in Ep].
  - split; [auto | intros _; eauto].
  - case_bool_decide as Hin; rewrite dict_keys in Hin.
    + destruct (attrs obj !! p) as [v |] eqn:Hv.
      * split; [intros _; right; eauto | intros _; eauto].
      * split; [intros (? & ? & [=]) |].
        intros [? | [_ [? [=]]]]; contradiction.
    + split; [intros (? & ? & [=]) |].
      intros [? | [? _]]; contradiction.
Qed.

Lemma construction_succeeds_iff_witness :
  (exists self σ1,
     StochasticLayer_init 1%positive (VInt 1) "c" integers "Unnamed Layer" store
     = (Ok self, σ1))
  <-> "c" = "thickness"
      \/ ("c" ∈ ((EXPECTED_PARAMS air ++ OPT_PARAMS air)%list).*1 /\ is_Some (attrs air !! "c")).
Proof.
  apply (construction_succeeds_iff 1%positive (VInt 1) "c" integers "Unnamed Layer" store air).
  reflexivity.
Defined.

(** X5: a parameter name that the schema has, on a medium without an
    attribute of that name, makes the constructor raise [AttributeError] for
    that name. *)
Theorem missing_attribute_fails_at_construction m t p (s : sampler) n σ obj :
  σ !! m = Some obj ->
  p <> "thickness" ->
  p ∈ ((EXPECTED_PARAMS obj ++ OPT_PARAMS obj)%list).*1 ->
  attrs obj !! p = None ->
  fst (StochasticLayer_init m t p s n σ) = Raise (AttributeError p).
Proof.
  intros H Hp%String.eqb_neq Hin Hnone.
  rewrite (StochasticLayer_init_unfold _ _ _ _ _ _ _ H), Hp.
  rewrite bool_decide_eq_true_2 by (apply dict_keys; assumption).
  unfold getattr. rewrite Hnone. reflexivity.
Qed.

Lemma missing_attribute_fails_at_construction_witness :
  fst porosity_layer = Raise (AttributeError "porosity").
Proof.
  apply (missing_attribute_fails_at_construction _ _ _ _ _ _ air).
  - reflexivity.
  - discriminate.
  - vm_compute. do 2 apply list_elem_of_further. apply list_elem_of_here.
  - vm_compute. reflexivity.
Defined.

(** X6: the constructor changes no object that exists: every reference of
    the store denotes the same object afterwards, whether the constructor
    succeeds or raises. When it succeeds, the layer's medium is equal to the
    medium given, [omega] included; for an instance it is at a reference
    that was not in use, and for a class object it is the given object
    itself and the store is the one before the call. *)
Theorem construction_keeps_existing_objects m t p (s : sampler) n σ :
  σ ⊆ snd (StochasticLayer_init m t p s n σ)
  /\ forall self,
       fst (StochasticLayer_init m t p s n σ) = Ok self ->
       snd (StochasticLayer_init m t p s n σ) !! medium (base self) = σ !! m
       /\ forall obj, σ !! m = Some obj ->
            if is_class obj
            then medium (base self) = m
                 /\ snd (StochasticLayer_init m t p s n σ) = σ
            else σ !! medium (base self) = None.
Proof.
  destruct (σ !! m) as [obj |] eqn:H.
  - rewrite (StochasticLayer_init_unfold _ _ _ _ _ _ _ H).
    pose proof (fresh_not_allocated σ) as Hfresh.
    destruct (is_class obj) eqn:Hclass; repeat case_match; cbn;
      (split; [reflexivity || (apply insert_subseteq; assumption) |]);
      intros self [= <-]; cbn; rewrite ?lookup_insert_eq;
      (split; [assumption || reflexivity |]);
      intros obj' [= <-]; rewrite Hclass; auto.
  - unfold StochasticLayer_init, Layer_init, deepcopy. rewrite H. cbn.
    split; [reflexivity | intros self [=]].
Qed.

(** X7: the type that a draw is checked against comes from
    [dict(EXPECTED_PARAMS + OPT_PARAMS)]: for a name that both schemas
    declare, the type of the optional schema is the one that counts, and for
    a name declared twice in one schema, the later declaration. *)
Theorem optional_schema_overrides_required m t p (s : sampler) n σ obj self σ1 :
  σ !! m = Some obj ->
  StochasticLayer_init m t p s n σ = (Ok self, σ1) ->
  medium_params self = dict (OPT_PARAMS obj) ∪ dict (EXPECTED_PARAMS obj)
  /\ (forall q ty rest,
        OPT_PARAMS obj = (rest ++ [(q, ty)])%list -> medium_params self !! q = Some ty)
  /\ (forall q, q ∉ (OPT_PARAMS obj).*1 ->
        medium_params self !! q = dict (EXPECTED_PARAMS obj) !! q).
Proof.
  intros H Hinit.
  destruct (StochasticLayer_init_establishes _ _ _ _ _ _ _ _ _ H Hinit)
    as (_ & _ & -> & _).
  rewrite dict_app. split; [reflexivity | split].
  - intros q ty rest ->. apply lookup_union_Some_l.
    rewrite dict_app. apply lookup_union_Some_l.
    unfold dict. cbn. apply lookup_insert_eq.
  - intros q Hq. apply lookup_union_r.
    apply eq_None_not_Some. rewrite dict_is_Some. assumption.
Qed.

Lemma optional_schema_overrides_required_witness :
  exists self σ1,
    regraded_layer = (Ok self, σ1)
    /\ medium_params self !! "rho" = Some TInt.
Proof.
  destruct regraded_layer as [[self | e] σ1] eqn:E; [| vm_compute in E; discriminate E].
  exists self, σ1. split; [reflexivity |].
  refine (proj1 (proj2 (optional_schema_overrides_required
            1%positive (VFloat (b64 1 (-1))) "rho" integers "Unnamed Layer"
            {[ 1%positive := regraded ]} regraded self σ1 _ E)) "rho" TInt [] _);
    reflexivity.
Defined.

End Construction.

(** ** Draws, one after another *)

Section DrawOutcomes.

Variable float : pyval -> result spec_float.

Implicit Types (σ : gmap loc Medium) (obj : Medium) (m k : loc).
Implicit Types (self : StochasticLayer) (t v : pyval) (p n : string).

Lemma thickness_draw_shape self σ r self1 σ1 :
  new_draw_method self = draw_thickness_m ->
  new_draw float self σ = (r, self1, σ1) ->
  σ1 = σ
  /\ name (base self1) = name (base self)
  /\ match r with
     | Ok v => v = VNone /\ type_of (thickness (base self1)) = TFloat
     | Raise _ => thickness (base self1) = thickness (base self)
     end.
Proof.
  intros Hm. unfold new_draw, draw_thickness. rewrite Hm. cbn.
  repeat case_match; intros [= <- <- <-]; cbn; auto.
Qed.

Lemma medium_draw_shape self σ r self1 σ1 :
  new_draw_method self = draw_medium_parameter_m ->
  new_draw float self σ = (r, self1, σ1) ->
  base self1 = base self
  /\ (σ1 = σ
      \/ exists obj d,
           r = Ok d
           /\ σ !! medium (base self) = Some obj
           /\ σ1 = <[medium (base self) :=
                       setattr "omega" (VInt (-1)) (setattr (stochastic_param self) d obj)]> σ).
Proof.
  intros Hm. unfold new_draw, draw_medium_parameter. rewrite Hm. cbn.
  repeat case_match; intros [= <- <- <-]; cbn; split; eauto 10.
Qed.


(** X8: a draw on the thickness never touches the store: every medium,
    the layer's own included, is as before. When the draw returns, the
    thickness is a [float], whatever the type of the sample was; when it
    raises, the thickness is the one before the call. *)
Theorem thickness_draw_leaves_store self σ r self1 σ1 :
  new_draw_method self = draw_thickness_m ->
  new_draw float self σ = (r, self1, σ1) ->
  σ1 = σ
  /\ match r with
     | Ok v => v = VNone /\ type_of (thickness (base self1)) = TFloat
     | Raise _ => thickness (base self1) = thickness (base self)
     end.
Proof.
  intros Hm Hd.
  destruct (thickness_draw_shape _ _ _ _ _ Hm Hd) as (? & _ & ?). auto.
Qed.

(** X9: a sample of the type that the lookup table has for the parameter is
    accepted: the draw returns the sample, the medium's attribute of that
    name is the sample (unless the parameter is [omega] itself, which the
    reset to [-1] overwrites), [omega] is [-1], and every other attribute
    and the class constants of the medium are as before. The layer's
    thickness, name and medium reference do not change. *)
Theorem matching_draw_is_stored self σ draw obj :
  new_draw_method self = draw_medium_parameter_m ->
  fst (call (pdf self)) = Ok draw ->
  medium_params self !! stochastic_param self = Some (type_of draw) ->
  σ !! medium (base self) = Some obj ->
  exists self1 obj1,
    new_draw float self σ = (Ok draw, self1, <[medium (base self) := obj1]> σ)
    /\ base self1 = base self
    /\ attrs obj1 !! "omega" = Some (VInt (-1))
    /\ (stochastic_param self <> "omega" ->
        attrs obj1 !! stochastic_param self = Some draw)
    /\ (forall a, a <> stochastic_param self -> a <> "omega" ->
        attrs obj1 !! a = attrs obj !! a)
    /\ MODEL obj1 = MODEL obj
    /\ EXPECTED_PARAMS obj1 = EXPECTED_PARAMS obj
    /\ OPT_PARAMS obj1 = OPT_PARAMS obj.
Proof.
  intros Hm Hs Hty Hobj. unfold new_draw, draw_medium_parameter.
  cbn in *. rewrite Hm, Hs, Hty, Hobj.
  rewrite bool_decide_eq_true_2 by reflexivity.
  eexists _, _. split; [reflexivity |]. cbn.
  split; [reflexivity |]. split; [apply lookup_insert_eq |].
  split; [| split; [| auto]].
  - intros Hp. rewrite lookup_insert_ne by congruence. apply lookup_insert_eq.
  - intros a Hap Hao. rewrite !lookup_insert_ne by congruence. reflexivity.
Qed.

(** X10: every call of [new_draw] takes exactly one sample from the source,
    whether it returns or raises. *)
Theorem draw_consumes_one_sample self σ r self1 σ1 :
  new_draw float self σ = (r, self1, σ1) ->
  calls (pdf self1) = S (calls (pdf self))
  /\ samples (pdf self1) = samples (pdf self).
Proof.
  unfold new_draw, draw_thickness, draw_medium_parameter.
  destruct (new_draw_method self); cbn;
    repeat case_match; intros [= <- <- <-]; cbn; auto.
Qed.

(** X11: an exception raised by the sample source comes out of [new_draw]
    as it is, and neither the thickness nor any medium has changed. *)
Theorem sampler_exception_propagates self σ e :
  fst (call (pdf self)) = Raise e ->
  new_draw float self σ = (Raise e, set_pdf (snd (call (pdf self))) self, σ).
Proof.
  intros Hs. unfold new_draw, draw_thickness, draw_medium_parameter.
  cbn in *. rewrite Hs. destruct (new_draw_method self); reflexivity.
Qed.

(** X12: a draw keeps the layer's binding (parameter name, lookup table,
    bound method, recorded initial value, medium reference), keeps the layer
    consistent, and neither adds an object to the store nor removes one. *)
Theorem draw_keeps_binding self σ r self1 σ1 :
  new_draw float self σ = (r, self1, σ1) ->
  same_binding self self1
  /\ (consistent self -> consistent self1)
  /\ dom σ1 = dom σ.
Proof.
  intros Hd.
  destruct (new_draw_effect _ _ _ _ _ _ Hd) as (Hb & _ & _).
  split; [assumption |]. split.
  - destruct Hb as (Hp & Hmp & Hmeth & _). unfold consistent.
    rewrite Hp, Hmp, Hmeth. auto.
  - destruct (new_draw_method self) eqn:Hm.
    + destruct (thickness_draw_shape _ _ _ _ _ Hm Hd) as (-> & _). reflexivity.
    + destruct (medium_draw_shape _ _ _ _ _ Hm Hd)
        as (_ & [-> | (obj & d & _ & Hobj & ->)]); [reflexivity |].
      apply dom_insert_lookup_L. eauto.
Qed.


End DrawOutcomes.

(** ** Reinitialisation, from any state *)

Section ReinitOutcomes.

Implicit Types (σ : gmap loc Medium) (obj : Medium) (m k : loc).
Implicit Types (self : StochasticLayer) (t v : pyval) (p n : string).

Lemma setattr_same a v obj : attrs obj !! a = Some v -> setattr a v obj = obj.
Proof.
  intros H. destruct obj as [cls md ex op at']. unfold setattr. cbn in *.
  f_equal. apply insert_id. assumption.
Qed.

Lemma set_thickness_same self :
  set_thickness (thickness (base self)) self = self.
Proof. destruct self as [[th md nm] p s mp meth init]. reflexivity. Qed.

(** X14: [reinit()] on a layer whose medium reference is valid never raises
    and takes no sample. It leaves the randomized quantity at the recorded
    initial value, the binding as it was, and every medium other than the
    layer's own untouched. With the thickness as the target it changes no
    medium at all; with a medium parameter it leaves the thickness alone. *)
Theorem reinit_contract self σ :
  is_Some (σ !! medium (base self)) ->
  exists self1 σ1,
    reinit self σ = (Ok VNone, self1, σ1)
    /\ target_value self1 σ1 = Some (initial_param_value self)
    /\ pdf self1 = pdf self
    /\ same_binding self self1
    /\ (forall k, k <> medium (base self) -> σ1 !! k = σ !! k)
    /\ (stochastic_param self = "thickness" -> σ1 = σ)
    /\ (stochastic_param self <> "thickness" ->
        thickness (base self1) = thickness (base self)).
Proof.
  intros [obj Hobj]. unfold reinit, target_value, same_binding.
  destruct (String.eqb (stochastic_param self) "thickness") eqn:Ep.
  - eexists _, _. split; [reflexivity |]. cbn. rewrite Ep.
    apply String.eqb_eq in Ep. repeat split; auto. congruence.
  - rewrite Hobj. eexists _, _. split; [reflexivity |].
    rewrite Ep, lookup_insert_eq. cbn. apply String.eqb_neq in Ep.
    split; [apply lookup_insert_eq |]. repeat split; auto.
    + intros k Hk. apply lookup_insert_ne. congruence.
    + intros ?. contradiction.
Qed.

(** X15: [reinit()] is idempotent: a second call returns what the first
    returned and leaves the layer and the store as the first left them. *)
Theorem reinit_idempotent self σ :
  let first := reinit self σ in
  reinit (snd (fst first)) (snd first) = first.
Proof.
  cbv zeta. unfold reinit.
  destruct (String.eqb (stochastic_param self) "thickness") eqn:Ep; cbn.
  - rewrite Ep. reflexivity.
  - destruct (σ !! medium (base self)) as [obj |] eqn:Hobj; cbn.
    + rewrite Ep, lookup_insert_eq, insert_insert_eq.
      do 2 f_equal. unfold setattr. cbn. f_equal. apply insert_insert_eq.
    + rewrite Ep, Hobj. reflexivity.
Qed.

(** X16: [reinit()] on a layer that has just been constructed changes
    nothing: the layer and the store are the ones the constructor left. *)
Theorem reinit_after_construction_is_identity m t p (s : sampler) n σ obj self σ1 :
  σ !! m = Some obj ->
  StochasticLayer_init m t p s n σ = (Ok self, σ1) ->
  reinit self σ1 = (Ok VNone, self, σ1).
Proof.
  intros H Hinit.
  destruct (StochasticLayer_init_establishes _ _ _ _ _ _ _ _ _ H Hinit)
    as (_ & _ & _ & Hmed & Hσ & Hval).
  revert Hval. unfold reinit, target_value.
  destruct (String.eqb (stochastic_param self) "thickness") eqn:Ep.
  - intros [= <-]. rewrite set_thickness_same. reflexivity.
  - destruct (σ1 !! medium (base self)) as [obj1 |] eqn:Hobj1; cbn; [| discriminate].
    intros Hv. rewrite (setattr_same _ _ _ Hv), (insert_id _ _ _ Hobj1).
    reflexivity.
Qed.

End ReinitOutcomes.

(** ** What [__str__] prints *)

Section Printed.

Variable float : pyval -> result spec_float.
Variable format : pyval -> string.

Implicit Types (σ : gmap loc Medium) (obj : Medium) (self : StochasticLayer).

Lemma reinit_keeps_name self σ r self1 σ1 :
  reinit self σ = (r, self1, σ1) -> name (base self1) = name (base self).
Proof.
  unfold reinit. repeat case_match; intros [= <- <- <-]; reflexivity.
Qed.

(** X17: what a stochastic layer prints is the same after a draw followed
    by [reinit()] as before the draw, when the layer was at its recorded
    value before the draw; this holds too when [__str__] raises, and when the
    drawn parameter is the medium's [name]. *)
Theorem str_unchanged_by_draw_and_reinit self σ r self1 σ1 r' self2 σ2 :
  consistent self ->
  target_value self σ = Some (initial_param_value self) ->
  new_draw float self σ = (r, self1, σ1) ->
  reinit self1 σ1 = (r', self2, σ2) ->
  StochasticLayer_str format self2 σ2 = StochasticLayer_str format self σ.
Proof.
  intros Hc Hnom Hd Hr.
  destruct (new_draw_effect _ _ _ _ _ _ Hd) as ((Hp & _ & _ & Hinit & Hmed) & _ & _).
  pose proof (reinit_keeps_name _ _ _ _ _ Hr) as Hname.
  revert Hr Hnom. unfold consistent in Hc. unfold reinit, target_value. rewrite Hp.
  destruct (new_draw_method self) eqn:Hm.
  - destruct (thickness_draw_shape _ _ _ _ _ _ Hm Hd) as (-> & Hn1 & _).
    rewrite Hc. cbn. intros [= <- <- <-] [= Ht].
    unfold StochasticLayer_str. cbn. rewrite Hmed, Hn1, Hinit, <- Ht. reflexivity.
  - destruct Hc as [Hne%String.eqb_neq _]. rewrite Hne.
    destruct (medium_draw_shape _ _ _ _ _ _ Hm Hd) as (Hbase & Hσ1).
    rewrite Hmed.
    destruct (σ !! medium (base self)) as [obj |] eqn:Hobj; cbn; [| discriminate].
    intros Hr Hv.
    assert (Hσ2 : self2 = self1
                  /\ exists obj1,
                       σ2 = <[medium (base self) :=
                               setattr (stochastic_param self) (initial_param_value self1) obj1]> σ1
                       /\ (attrs obj1 !! "name" = attrs obj !! "name"
                           \/ stochastic_param self = "name")).
    { destruct Hσ1 as [-> | (obj' & d & _ & Hobj' & ->)].
      - rewrite Hobj in Hr. injection Hr as <- <- <-.
        split; [reflexivity |]. exists obj. auto.
      - rewrite lookup_insert_eq in Hr. injection Hr as <- <- <-.
        split; [reflexivity |]. eexists. split; [reflexivity |].
        destruct (decide (stochastic_param self = "name")) as [|Hn]; [auto |].
        left. assert (obj' = obj) as -> by congruence. cbn.
        rewrite !lookup_insert_ne by congruence. reflexivity. }
    destruct Hσ2 as (-> & obj1 & -> & Hn).
    unfold StochasticLayer_str, getattr. rewrite Hbase, lookup_insert_eq, Hobj. cbn.
    rewrite Hinit.
    destruct (decide (stochastic_param self = "name")) as [Hn' | Hn'].
    + rewrite Hn', lookup_insert_eq. rewrite Hn' in Hv. rewrite Hv. reflexivity.
    + destruct Hn as [Hn | Hn]; [| contradiction].
      rewrite lookup_insert_ne by assumption. rewrite Hn. reflexivity.
Qed.

End Printed.

(** ** The further properties at concrete layers *)

Section AtExamples.

Lemma thickness_draw_leaves_store_witness :
  let o := new_draw float_of_number (fst thick_layer) (snd thick_layer) in
  snd o = snd thick_layer
  /\ match fst (fst o) with
     | Ok v => v = VNone /\ type_of (thickness (base (snd (fst o)))) = TFloat
     | Raise _ => thickness (base (snd (fst o))) = thickness (base (fst thick_layer))
     end.
Proof.
  cbv zeta.
  apply (thickness_draw_leaves_store float_of_number (fst thick_layer) (snd thick_layer)).
  - reflexivity.
  - vm_compute. reflexivity.
Defined.

Lemma matching_draw_is_stored_witness :
  exists self1 obj1,
    new_draw float_of_number (fst rho_layer) (snd rho_layer)
    = (Ok (VFloat (b64 6 (-2))), self1, <[medium (base (fst rho_layer)) := obj1]> (snd rho_layer))
    /\ attrs obj1 !! "omega" = Some (VInt (-1))
    /\ attrs obj1 !! "rho" = Some (VFloat (b64 6 (-2)))
    /\ attrs obj1 !! "c" = attrs air !! "c".
Proof.
  destruct (matching_draw_is_stored float_of_number (fst rho_layer) (snd rho_layer)
              (VFloat (b64 6 (-2))) air)
    as (self1 & obj1 & Hdraw & _ & Homega & Hrho & Hrest & _).
  - reflexivity.
  - reflexivity.
  - vm_compute. reflexivity.
  - vm_compute. reflexivity.
  - exists self1, obj1. split; [exact Hdraw |]. split; [exact Homega |]. split.
    + apply Hrho. discriminate.
    + apply Hrest; discriminate.
Defined.

Lemma draw_consumes_one_sample_witness :
  let o := new_draw float_of_number (fst rho_layer_of_integers) (snd rho_layer_of_integers) in
  calls (pdf (snd (fst o))) = 1%nat
  /\ samples (pdf (snd (fst o))) = samples integers.
Proof.
  cbv zeta.
  apply (draw_consumes_one_sample float_of_number
           (fst rho_layer_of_integers) (snd rho_layer_of_integers)
           (fst (fst (new_draw float_of_number
                        (fst rho_layer_of_integers) (snd rho_layer_of_integers))))
           _
           (snd (new_draw float_of_number
                   (fst rho_layer_of_integers) (snd rho_layer_of_integers)))).
  vm_compute. reflexivity.
Defined.

Lemma sampler_exception_propagates_witness :
  new_draw float_of_number (fst failing_layer) (snd failing_layer)
  = (Raise (ValueError "no sample"),
     set_pdf (snd (call failing)) (fst failing_layer),
     snd failing_layer).
Proof.
  apply (sampler_exception_propagates float_of_number
           (fst failing_layer) (snd failing_layer) (ValueError "no sample")).
  reflexivity.
Defined.

Lemma draw_keeps_binding_witness :
  let o := then_draw rho_layer in
  same_binding (fst rho_layer) (fst o)
  /\ (consistent (fst rho_layer) -> consistent (fst o))
  /\ dom (snd o) = dom (snd rho_layer).
Proof.
  cbv zeta.
  apply (draw_keeps_binding float_of_number (fst rho_layer) (snd rho_layer)
           (fst (fst (new_draw float_of_number (fst rho_layer) (snd rho_layer))))).
  vm_compute. reflexivity.
Defined.


Lemma reinit_contract_witness :
  exists self1 σ1,
    reinit (fst (then_draw rho_layer)) (snd (then_draw rho_layer)) = (Ok VNone, self1, σ1)
    /\ target_value self1 σ1 = Some (VFloat (b64 5 (-2))).
Proof.
  destruct (reinit_contract (fst (then_draw rho_layer)) (snd (then_draw rho_layer)))
    as (self1 & σ1 & Hr & Hv & _).
  - vm_compute. eexists. reflexivity.
  - exists self1, σ1. split; [exact Hr | exact Hv].
Defined.

Lemma reinit_after_construction_is_identity_witness :
  reinit (fst rho_layer) (snd rho_layer) = (Ok VNone, fst rho_layer, snd rho_layer)
  /\ reinit (fst thick_layer) (snd thick_layer) = (Ok VNone, fst thick_layer, snd thick_layer).
Proof.
  split.
  - apply (reinit_after_construction_is_identity 1%positive (VFloat (b64 1 (-1)))
             "rho" quarters "Unnamed Layer" store air).
    + reflexivity.
    + vm_compute. reflexivity.
  - apply (reinit_after_construction_is_identity 1%positive (VFloat (b64 1 (-1)))
             "thickness" quarters "Unnamed Layer" store air).
    + reflexivity.
    + vm_compute. reflexivity.
Defined.

Lemma str_unchanged_by_draw_and_reinit_witness :
  StochasticLayer_str format_field
    (fst (then_reinit (then_draw named_rho_layer)))
    (snd (then_reinit (then_draw named_rho_layer)))
  = StochasticLayer_str format_field (fst named_rho_layer) (snd named_rho_layer).
Proof.
  apply (str_unchanged_by_draw_and_reinit float_of_number format_field
           (fst named_rho_layer) (snd named_rho_layer)
           (fst (fst (new_draw float_of_number (fst named_rho_layer) (snd named_rho_layer))))
           (fst (then_draw named_rho_layer)) (snd (then_draw named_rho_layer))
           (fst (fst (reinit (fst (then_draw named_rho_layer))
                        (snd (then_draw named_rho_layer)))))).
  - vm_compute. split; [discriminate | eexists; reflexivity].
  - vm_compute. reflexivity.
  - vm_compute. reflexivity.
  - vm_compute. reflexivity.
Defined.

(** What the layer of the last witness prints: its name, its thickness [1],
    the name of its medium, and the last part as it stands in the source. *)
Example named_rho_layer_printed :
  StochasticLayer_str format_field (fst named_rho_layer) (snd named_rho_layer)
  = Ok "trim - 1m of air (self.medium.MEDIUM_TYPE)".
Proof. vm_compute. reflexivity. Qed.

End AtExamples.
